(** * fastfood-sankey-explorer: the filtering and aggregation pipeline

    A shallow embedding of [src/fast_api.py] (class [FASTAPI]) and of the
    part of [src/fastexplorer.py] that calls it.

    Modelling choices.
    - A pandas [DataFrame] is the list of its rows in index order; a boolean
      mask is [filter], which keeps order and multiplicity.
    - The numeric columns [calories] and [total_fat] are integer columns
      (int64 in pandas).  A cell is a [Z]; [//] is floor division, which
      is [Z.div] for the positive divisors used here, and the product that
      follows wraps around in 64 bits ([wrap64]).
    - Restaurant names are strings of bytes.  [lower] is [str.lower] on
      names made of ASCII characters; a statement that reads the
      lowercased names of a table is made for tables whose names are
      ASCII ([ascii_names]).
    - The [FASTAPI] object is a record holding the attribute [fast]; the
      disk is a partial map from file names to tables; methods are written
      in a small error-and-state monad. *)

From Stdlib Require Import ZArith List String Ascii Bool Lia Arith.
From Stdlib Require Import Permutation Sorted.
From Stdlib Require Import DecimalString DecimalPos DecimalZ.
Import ListNotations.

Local Open Scope string_scope.
Local Open Scope Z_scope.

(** ** Strings *)

(** [str.lower] on one ASCII character: 'A'..'Z' move to 'a'..'z'.  On a
    name with other characters [str.lower] does more; see [ascii_names]. *)
Definition lower_ascii (c : ascii) : ascii :=
  let n := nat_of_ascii c in
  if ((65 <=? n) && (n <=? 90))%nat then ascii_of_nat (n + 32) else c.

Fixpoint lower (s : string) : string :=
  match s with
  | EmptyString => EmptyString
  | String c s' => String (lower_ascii c) (lower s')
  end.

(** [str] of an integer, as [astype(str)] renders an int64 cell. *)
Definition str_of_int (z : Z) : string :=
  NilZero.string_of_int (Z.to_int z).

(** ** Tables *)

(** One record of [data/fastfood.csv].  [others] carries the remaining
    columns of the file, which the pipeline never reads. *)
Record Row : Type := mkRow {
  restaurant : string;
  calories : Z;
  total_fat : Z;
  others : list string
}.

Definition DataFrame : Type := list Row.

(** A row of [fast] after lines 56-57: the record plus the two bins. *)
Record BinnedRow : Type := mkBinned {
  b_row : Row;
  b_calories_100 : Z;
  b_total_fat_10 : Z
}.

(** A row of [fast_filter] before the aggregation (lines 60-67). *)
Record FilterRow : Type := mkFilter {
  f_restaurant : string;
  f_calories_100 : Z;
  f_total_fat_10 : Z
}.

(** A row of [fast_filter] after [groupby(...).size().reset_index]. *)
Record AggRow : Type := mkAgg {
  a_restaurant : string;
  a_calories_100 : Z;
  num_foods : nat
}.

(** A row of the returned frame [local]: [calories_100] is a string. *)
Record LocalRow : Type := mkLocal {
  l_row : Row;
  l_calories_100 : string;
  l_total_fat_10 : Z
}.

(** [max_fat] is a plain number or an [IntSlider] widget (line 64). *)
Inductive MaxFat : Type :=
| Num (n : Z)
| IntSlider (value : Z).

Definition max_fat_value (max_fat : MaxFat) : Z :=
  match max_fat with
  | IntSlider value => value
  | Num n => n
  end.

(** ** The steps of [extract_local_network] *)

(** The value an int64 cell keeps of an integer result. *)
Definition wrap64 (z : Z) : Z :=
  (z + 2 ^ 63) mod 2 ^ 64 - 2 ^ 63.

Arguments wrap64 : simpl never.

(** Lines 56-57, on int64 columns. *)
Definition add_bins (r : Row) : BinnedRow :=
  mkBinned r (wrap64 (calories r / 100 * 100)) (wrap64 (total_fat r / 5 * 5)).

(** Lines 60-61: project, then lowercase the restaurant of the copy. *)
Definition project (b : BinnedRow) : FilterRow :=
  mkFilter (lower (restaurant (b_row b))) (b_calories_100 b) (b_total_fat_10 b).

(** Line 67. *)
Definition fat_ok (limit : Z) (x : FilterRow) : bool :=
  f_total_fat_10 x <=? limit.

(** Line 70: [groupby(['restaurant','calories_100']).size()]. *)
Definition Key : Type := (string * Z)%type.

Definition key_eqb (k1 k2 : Key) : bool :=
  String.eqb (fst k1) (fst k2) && (snd k1 =? snd k2).

Definition key_of (x : FilterRow) : Key := (f_restaurant x, f_calories_100 x).
Definition a_key (a : AggRow) : Key := (a_restaurant a, a_calories_100 a).

(** Count one more row in the group of [k], opening the group if new. *)
Fixpoint bump (k : Key) (groups : list AggRow) : list AggRow :=
  match groups with
  | [] => [mkAgg (fst k) (snd k) 1]
  | a :: rest =>
      if key_eqb k (a_key a)
      then mkAgg (a_restaurant a) (a_calories_100 a) (S (num_foods a)) :: rest
      else a :: bump k rest
  end.

Definition count_groups (rows : list FilterRow) : list AggRow :=
  fold_left (fun groups x => bump (key_of x) groups) rows [].

(** [groupby] returns its groups ordered by key. *)
Definition key_leb (k1 k2 : Key) : bool :=
  match String.compare (fst k1) (fst k2) with
  | Lt => true
  | Eq => snd k1 <=? snd k2
  | Gt => false
  end.

(** Sorting by a boolean order: each row is inserted before the first row
    that is not below it, so rows that compare equal keep their order. *)
Fixpoint insert_by {A : Type} (leb : A -> A -> bool) (x : A) (l : list A)
  : list A :=
  match l with
  | [] => [x]
  | y :: rest => if leb x y then x :: y :: rest else y :: insert_by leb x rest
  end.

Definition sort_by {A : Type} (leb : A -> A -> bool) (l : list A) : list A :=
  fold_right (insert_by leb) [] l.

Definition groupby_size (rows : list FilterRow) : list AggRow :=
  sort_by (fun a b => key_leb (a_key a) (a_key b)) (count_groups rows).

(** Line 73: [sort_values('num_foods', ascending=False)].  pandas leaves
    the order of rows with equal counts open; here they keep their order. *)
Definition sort_values (rows : list AggRow) : list AggRow :=
  sort_by (fun a b => (num_foods b <=? num_foods a)%nat) rows.

(** [fast] after lines 56-57. *)
Definition binned (csv : DataFrame) : list BinnedRow := map add_bins csv.

(** [fast_filter] after line 67. *)
Definition fat_filtered (csv : DataFrame) (max_fat : MaxFat) : list FilterRow :=
  filter (fat_ok (max_fat_value max_fat)) (map project (binned csv)).

(** [fast_filter] after line 73. *)
Definition fast_filter (csv : DataFrame) (max_fat : MaxFat) : list AggRow :=
  sort_values (groupby_size (fat_filtered csv max_fat)).

(** Line 76: the query string is compared as it was passed. *)
Definition fast_rest (csv : DataFrame) (r : string) (max_fat : MaxFat)
  : list AggRow :=
  filter (fun a => String.eqb (a_restaurant a) r) (fast_filter csv max_fat).

(** [Series.isin]. *)
Definition isin (z : Z) (values : list Z) : bool :=
  existsb (Z.eqb z) values.

(** Line 80. *)
Definition render (b : BinnedRow) : LocalRow :=
  mkLocal (b_row b) (str_of_int (b_calories_100 b)) (b_total_fat_10 b).

(** Lines 56-82 on a table already read. *)
Definition local_network (csv : DataFrame) (r : string) (max_fat : MaxFat)
  : list LocalRow :=
  let fast := binned csv in
  let rest := fast_rest csv r max_fat in
  map render
    (filter (fun b => isin (b_calories_100 b) (map a_calories_100 rest)) fast).

(** ** The program state and its monad *)

(** What a call can raise. *)
Inductive Exn : Type :=
| FileNotFoundError (filename : string)
| AttributeError (name : string).

Inductive Result (A : Type) : Type :=
| Ok (a : A)
| Raise (e : Exn).

Arguments Ok {A} a.
Arguments Raise {A} e.

(** The files [pd.read_csv] can find.  Nothing in the program writes one. *)
Definition Disk : Type := string -> option DataFrame.

(** The mutable objects: the attribute [fast] of the [FASTAPI] instance
    (unset until [load_fast]) and the module-level variable [local] of
    [fastexplorer.py] (unset until [get_catalog]). *)
Record Store : Type := mkStore {
  fast : option DataFrame;
  local : option (list LocalRow)
}.

Definition M (A : Type) : Type := Disk -> Store -> Result (A * Store).

Definition ret {A : Type} (a : A) : M A :=
  fun _ st => Ok (a, st).

Definition bind {A B : Type} (m : M A) (k : A -> M B) : M B :=
  fun disk st =>
    match m disk st with
    | Ok (a, st') => k a disk st'
    | Raise e => Raise e
    end.

Notation "x <- m ;; k" := (bind m (fun x => k))
  (at level 61, m at next level, right associativity).
Notation "m ;;; k" := (bind m (fun _ => k))
  (at level 61, right associativity).

Definition read_csv (filename : string) : M DataFrame :=
  fun disk st =>
    match disk filename with
    | Some df => Ok (df, st)
    | None => Raise (FileNotFoundError filename)
    end.

Definition get_fast : M DataFrame :=
  fun _ st =>
    match fast st with
    | Some df => Ok (df, st)
    | None => Raise (AttributeError "fast")
    end.

Definition set_fast (df : DataFrame) : M unit :=
  fun _ st => Ok (tt, mkStore (Some df) (local st)).

Definition set_local (rows : list LocalRow) : M unit :=
  fun _ st => Ok (tt, mkStore (fast st) (Some rows)).

(** ** [FASTAPI] *)

Definition load_fast (filename : string) : M unit :=
  df <- read_csv filename ;;
  set_fast df.

(** [Series.unique]: the distinct values in order of first appearance. *)
Fixpoint unique_from (seen : list string) (l : list string) : list string :=
  match l with
  | [] => []
  | x :: rest =>
      if existsb (String.eqb x) seen
      then unique_from seen rest
      else x :: unique_from (x :: seen) rest
  end.

Definition unique (l : list string) : list string := unique_from [] l.

Definition lower_restaurant (row : Row) : Row :=
  mkRow (lower (restaurant row)) (calories row) (total_fat row) (others row).

(** Lines 35-42.  [fastfood] is another name for the object in [self.fast],
    so the assignment of line 38 writes the stored table. *)
Definition get_restaurants : M (list string) :=
  fastfood <- get_fast ;;
  let fastfood' := map lower_restaurant fastfood in
  set_fast fastfood' ;;;
  ret (unique (map restaurant fastfood')).

(** Lines 53-82.  The table comes from the file, never from [self.fast]. *)
Definition extract_local_network (r : string) (max_fat : MaxFat)
  : M (list LocalRow) :=
  csv <- read_csv "data/fastfood.csv" ;;
  ret (local_network csv r max_fat).

(** ** [fastexplorer.py] *)

(** Lines 47-51; [reset_index(drop=True)] renumbers the index and leaves
    the rows and their order as they are. *)
Definition get_catalog (r : string) (max_fat : MaxFat) : M (list LocalRow) :=
  rows <- extract_local_network r max_fat ;;
  set_local rows ;;;
  ret rows.

(** ** The calls into [sankey2] *)

(** [sankey2] is a library outside this repository; a call to
    [make_sankey] or [show_sankey] is recorded with its arguments. *)
Record SankeyCall : Type := mkSankeyCall {
  sk_df : list LocalRow;
  sk_src : string;
  sk_targ : string;
  sk_vals : string;
  sk_width : option Z;
  sk_height : option Z;
  sk_line_color : option string
}.

(** [fast_api.py], lines 85-99: [main] up to the call of [show_sankey]. *)
Definition main : M SankeyCall :=
  load_fast "data/fastfood.csv" ;;;
  rows <- extract_local_network "mcdonalds" (Num 30) ;;
  ret (mkSankeyCall rows "restaurant" "calories_100" "total_fat_10"
                    None None None).

(** [fastexplorer.py], lines 29-34. *)
Definition color_options : list (string * string) :=
  [ ("Default (Black)", "black");
    ("Vibrant Red", "red");
    ("Cool Blue", "blue");
    ("Nature Green", "green") ].

Fixpoint getitem (d : list (string * string)) (key : string) : option string :=
  match d with
  | [] => None
  | (k, v) :: rest => if String.eqb k key then Some v else getitem rest key
  end.

(** What [get_plot] can raise before it reaches [make_sankey]. *)
Inductive PlotExn : Type :=
| NameError (name : string)
| KeyError (key : string).

Inductive Plot : Type :=
| Drawn (call : SankeyCall)
| Failed (e : PlotExn).

(** [fastexplorer.py], lines 53-66.  The arguments of the call are
    evaluated from left to right: the global [local] first, the colour
    last.  [r] and [max_fat] are parameters the body never reads. *)
Definition get_plot (r : string) (max_fat : MaxFat) (width height : Z)
           (color_picker : string) (st : Store) : Plot :=
  match local st with
  | None => Failed (NameError "local")
  | Some rows =>
      match getitem color_options color_picker with
      | None => Failed (KeyError color_picker)
      | Some color =>
          Drawn (mkSankeyCall rows "restaurant" "calories_100" "total_fat_10"
                              (Some width) (Some height) (Some color))
      end
  end.

(** ** Vocabulary of the statements *)

(** The number of rows of a group, read off the rows themselves. *)
Definition count_key (k : Key) (rows : list FilterRow) : nat :=
  List.length (filter (fun x => key_eqb (key_of x) k) rows).

(** The count recorded for a key, [0%nat] when it has no group. *)
Definition recorded (k : Key) (groups : list AggRow) : nat :=
  match find (fun a => key_eqb (a_key a) k) groups with
  | Some a => num_foods a
  | None => 0
  end.

(** Invariant of the group list: one group per key, none of them empty. *)
Definition well_grouped (groups : list AggRow) : Prop :=
  NoDup (map a_key groups) /\ Forall (fun a => (1 <= num_foods a)%nat) groups.

(** A record of restaurant [r] (after lowercasing the stored name) that
    passes the fat filter and falls in calorie bin [bin]. *)
Definition supports (r : string) (limit bin : Z) (row : Row) : Prop :=
  lower (restaurant row) = r
  /\ b_total_fat_10 (add_bins row) <= limit
  /\ b_calories_100 (add_bins row) = bin.

(** Whether some record of restaurant [r] that passes the fat filter falls
    in calorie bin [bin]: the membership test of line 79, written on the
    records of the file. *)
Definition shares_bin (csv : DataFrame) (r : string) (limit : Z) (bin : Z)
  : bool :=
  existsb
    (fun peer =>
       String.eqb (lower (restaurant peer)) r
       && (b_total_fat_10 (add_bins peer) <=? limit)
       && (b_calories_100 (add_bins peer) =? bin))
    csv.

(** A name made of ASCII characters only. *)
Fixpoint ascii_only (s : string) : bool :=
  match s with
  | EmptyString => true
  | String c s' => (nat_of_ascii c <? 128)%nat && ascii_only s'
  end.

(** A table whose restaurant names are ASCII: on these [lower] is what
    [str.lower] computes. *)
Definition ascii_names (df : DataFrame) : Prop :=
  Forall (fun row => ascii_only (restaurant row) = true) df.

(** The least [calories] and [total_fat] whose bin still fits in int64. *)
Definition min_calories : Z := -9223372036854775800.
Definition min_total_fat : Z := -9223372036854775805.


(** [bin] is [x] rounded down to a multiple of [w]. *)
Definition floor_to (w x bin : Z) : Prop :=
  exists q, bin = q * w /\ q * w <= x < q * w + w.

(** The records counted by all aggregate rows together. *)
Definition total_foods (groups : list AggRow) : nat :=
  fold_right (fun a n => (num_foods a + n)%nat) 0%nat groups.

(** Whether a record of the file belongs to the group of an aggregate row
    and passes the fat filter. *)
Definition counted_in (limit : Z) (a : AggRow) (row : Row) : bool :=
  String.eqb (lower (restaurant row)) (a_restaurant a)
  && (b_calories_100 (add_bins row) =? a_calories_100 a)
  && (b_total_fat_10 (add_bins row) <=? limit).

(** The rows come in descending order of [num_foods]. *)
Definition by_count_desc (a b : AggRow) : Prop :=
  (num_foods b <= num_foods a)%nat.

(** ** Examples *)

Definition example_csv : DataFrame :=
  [ mkRow "mcdonalds" 300 10 [];
    mkRow "mcdonalds" 300 40 [];
    mkRow "wendys" 300 5 [] ].

Definition mixed_case_csv : DataFrame :=
  [ mkRow "McDonalds" 350 12 ["Cheeseburger"];
    mkRow "Wendys" 320 41 ["Baconator"];
    mkRow "Wendys" 780 9 ["Salad"] ].

Definition disk_of (csv : DataFrame) : Disk :=
  fun filename =>
    if String.eqb filename "data/fastfood.csv" then Some csv else None.

Definition empty_store : Store := mkStore None None.

Example example_fast_filter :
  fast_filter example_csv (Num 40)
  = [ mkAgg "mcdonalds" 300 2; mkAgg "wendys" 300 1 ].
Proof. reflexivity. Qed.

Example example_wrap64 :
  wrap64 (2 ^ 63) = - 2 ^ 63 /\ wrap64 (- 2 ^ 63 - 1) = 2 ^ 63 - 1
  /\ wrap64 300 = 300 /\ wrap64 (-100) = -100.
Proof. repeat split; reflexivity. Qed.

Example example_sorted_by_count :
  fast_filter
    [ mkRow "Wendys" 410 3 []; mkRow "arbys" 120 2 [];
      mkRow "wendys" 450 4 []; mkRow "Arbys" 990 80 [] ]
    (Num 20)
  = [ mkAgg "wendys" 400 2; mkAgg "arbys" 100 1 ].
Proof. reflexivity. Qed.

Example example_local_network :
  local_network example_csv "mcdonalds" (Num 15)
  = [ mkLocal (mkRow "mcdonalds" 300 10 []) "300" 10;
      mkLocal (mkRow "mcdonalds" 300 40 []) "300" 40;
      mkLocal (mkRow "wendys" 300 5 []) "300" 5 ].
Proof. reflexivity. Qed.

Example example_mixed_case :
  local_network mixed_case_csv "mcdonalds" (IntSlider 15)
  = [ mkLocal (mkRow "McDonalds" 350 12 ["Cheeseburger"]) "300" 10;
      mkLocal (mkRow "Wendys" 320 41 ["Baconator"]) "300" 40 ].
Proof. reflexivity. Qed.

Example example_negative_bin :
  render (add_bins (mkRow "x" (-50) (-1) [])) = mkLocal (mkRow "x" (-50) (-1) []) "-100" (-5).
Proof. reflexivity. Qed.

Example example_unique :
  unique ["b"; "a"; "b"; "c"; "a"] = ["b"; "a"; "c"].
Proof. reflexivity. Qed.

(** ** Lowercasing *)

Lemma lower_ascii_idem (c : ascii) : lower_ascii (lower_ascii c) = lower_ascii c.
Proof.
  destruct c as [[] [] [] [] [] [] [] []]; reflexivity.
Qed.

Lemma lower_idem (s : string) : lower (lower s) = lower s.
Proof.
  induction s as [|c s IH]; simpl.
  - reflexivity.
  - now rewrite lower_ascii_idem, IH.
Qed.

(** ** Rendering *)

(** [astype(str)] loses nothing: the integer can be read back. *)
Lemma str_of_int_read_back (z : Z) :
  option_map Z.of_int (NilZero.int_of_string (str_of_int z)) = Some z.
Proof.
  unfold str_of_int. rewrite NilZero.isi.
  - simpl. now rewrite DecimalZ.of_to.
  - destruct z; simpl; try discriminate.
    intros H. inversion H as [H']. now apply DecimalPos.Unsigned.to_uint_nonnil in H'.
  - destruct z; simpl; try discriminate.
    intros H. inversion H as [H']. now apply DecimalPos.Unsigned.to_uint_nonnil in H'.
Qed.

Lemma str_of_int_inj (z1 z2 : Z) : str_of_int z1 = str_of_int z2 -> z1 = z2.
Proof.
  intros E.
  pose proof (str_of_int_read_back z1) as H1.
  pose proof (str_of_int_read_back z2) as H2.
  rewrite E in H1. congruence.
Qed.

(** ** Keys *)

Lemma key_eqb_eq (k1 k2 : Key) : key_eqb k1 k2 = true <-> k1 = k2.
Proof.
  destruct k1 as [s1 z1], k2 as [s2 z2]. unfold key_eqb. simpl.
  rewrite andb_true_iff, String.eqb_eq, Z.eqb_eq.
  split.
  - intros [-> ->]. reflexivity.
  - intros E. inversion E. auto.
Qed.

Lemma key_eqb_refl (k : Key) : key_eqb k k = true.
Proof. now apply key_eqb_eq. Qed.

Lemma key_eqb_neq (k1 k2 : Key) : key_eqb k1 k2 = false <-> k1 <> k2.
Proof.
  rewrite <- key_eqb_eq. destruct (key_eqb k1 k2); split; congruence.
Qed.

(** ** Counting groups *)

Lemma recorded_bump (k k' : Key) (groups : list AggRow) :
  recorded k (bump k' groups)
  = (recorded k groups + if key_eqb k' k then 1 else 0)%nat.
Proof.
  unfold recorded. induction groups as [|a rest IH]; simpl.
  - replace (a_key (mkAgg (fst k') (snd k') 1)) with k' by now destruct k'.
    destruct (key_eqb k' k); reflexivity.
  - destruct (key_eqb k' (a_key a)) eqn:E; simpl.
    + apply key_eqb_eq in E. subst k'.
      replace (a_key (mkAgg (a_restaurant a) (a_calories_100 a) (S (num_foods a))))
        with (a_key a) by reflexivity.
      destruct (key_eqb (a_key a) k); simpl; lia.
    + destruct (key_eqb (a_key a) k) eqn:E'.
      * apply key_eqb_eq in E'. subst k.
        rewrite E. lia.
      * exact IH.
Qed.

Lemma recorded_fold (k : Key) (rows : list FilterRow) :
  forall groups,
    recorded k (fold_left (fun g x => bump (key_of x) g) rows groups)
    = (recorded k groups + count_key k rows)%nat.
Proof.
  unfold count_key.
  induction rows as [|x rows IH]; intros groups; simpl.
  - lia.
  - rewrite IH, recorded_bump.
    destruct (key_eqb (key_of x) k); simpl; lia.
Qed.

Lemma recorded_count_groups (k : Key) (rows : list FilterRow) :
  recorded k (count_groups rows) = count_key k rows.
Proof.
  unfold count_groups. now rewrite recorded_fold.
Qed.

Lemma bump_keys (k k' : Key) (groups : list AggRow) :
  In k (map a_key (bump k' groups)) <-> k = k' \/ In k (map a_key groups).
Proof.
  induction groups as [|a rest IH]; simpl.
  - destruct k'; unfold a_key; simpl. intuition congruence.
  - destruct (key_eqb k' (a_key a)) eqn:E; simpl.
    + apply key_eqb_eq in E. subst k'.
      unfold a_key at 1; simpl. fold (a_key a). intuition congruence.
    + rewrite IH. intuition congruence.
Qed.

Lemma bump_well_grouped (k : Key) (groups : list AggRow) :
  well_grouped groups -> well_grouped (bump k groups).
Proof.
  unfold well_grouped.
  induction groups as [|a rest IH]; simpl; intros [ND FA].
  - split.
    + constructor; [intros [] | constructor].
    + repeat constructor.
  - inversion ND as [|? ? Hnot ND']; subst.
    inversion FA as [|? ? Ha FA']; subst.
    destruct (key_eqb k (a_key a)) eqn:E; simpl.
    + split.
      * constructor; assumption.
      * constructor; [simpl; lia | assumption].
    + destruct (IH (conj ND' FA')) as [ND2 FA2].
      split.
      * constructor; [|assumption].
        rewrite bump_keys. intros [Heq|H]; [|contradiction].
        rewrite Heq, key_eqb_refl in E. discriminate.
      * constructor; assumption.
Qed.

Lemma count_groups_well_grouped (rows : list FilterRow) :
  well_grouped (count_groups rows).
Proof.
  unfold count_groups.
  assert (G : forall groups, well_grouped groups ->
            well_grouped (fold_left (fun g x => bump (key_of x) g) rows groups)).
  { induction rows as [|x rows IH]; simpl; intros groups WG.
    - assumption.
    - apply IH, bump_well_grouped, WG. }
  apply G. split; constructor.
Qed.

Lemma recorded_of_member (a : AggRow) (groups : list AggRow) :
  NoDup (map a_key groups) -> In a groups ->
  recorded (a_key a) groups = num_foods a.
Proof.
  unfold recorded.
  induction groups as [|b rest IH]; simpl; intros ND HIn.
  - contradiction.
  - inversion ND as [|? ? Hnot ND']; subst.
    destruct HIn as [->|HIn].
    + now rewrite key_eqb_refl.
    + destruct (key_eqb (a_key b) (a_key a)) eqn:E.
      * apply key_eqb_eq in E. exfalso. apply Hnot. rewrite E.
        now apply in_map.
      * now apply IH.
Qed.

Lemma member_of_recorded (k : Key) (groups : list AggRow) :
  (1 <= recorded k groups)%nat ->
  exists a, In a groups /\ a_key a = k /\ num_foods a = recorded k groups.
Proof.
  unfold recorded.
  destruct (find (fun a => key_eqb (a_key a) k) groups) as [a|] eqn:F.
  - intros _. apply find_some in F. destruct F as [HIn E].
    apply key_eqb_eq in E. now exists a.
  - lia.
Qed.

(** A group is in the count exactly when it is non-empty and its count is
    the number of rows carrying its key. *)
Lemma count_groups_spec (a : AggRow) (rows : list FilterRow) :
  In a (count_groups rows)
  <-> (1 <= num_foods a)%nat /\ num_foods a = count_key (a_key a) rows.
Proof.
  destruct (count_groups_well_grouped rows) as [ND FA].
  split.
  - intros HIn. split.
    + rewrite Forall_forall in FA. now apply FA.
    + rewrite <- recorded_count_groups. symmetry.
      now apply recorded_of_member.
  - intros [H1 HC].
    destruct (member_of_recorded (a_key a) (count_groups rows))
      as (b & HIn & HK & HN).
    + rewrite recorded_count_groups. lia.
    + rewrite recorded_count_groups in HN.
      replace a with b; [assumption|].
      destruct a, b. unfold a_key in HK. simpl in *.
      inversion HK. congruence.
Qed.

Lemma count_key_pos (k : Key) (rows : list FilterRow) :
  (1 <= count_key k rows)%nat <-> exists x, In x rows /\ key_of x = k.
Proof.
  unfold count_key. split.
  - destruct (filter (fun x => key_eqb (key_of x) k) rows) as [|x l] eqn:F.
    + simpl. lia.
    + intros _. exists x.
      assert (HIn : In x (filter (fun x => key_eqb (key_of x) k) rows))
        by (rewrite F; now left).
      apply filter_In in HIn. destruct HIn as [HIn E].
      apply key_eqb_eq in E. auto.
  - intros (x & HIn & E).
    assert (HF : In x (filter (fun x => key_eqb (key_of x) k) rows)).
    { apply filter_In. split; [assumption|]. now apply key_eqb_eq. }
    destruct (filter (fun x => key_eqb (key_of x) k) rows); simpl.
    + contradiction.
    + lia.
Qed.

(** ** Sorting *)

Lemma insert_by_perm {A : Type} (leb : A -> A -> bool) (x : A) (l : list A) :
  Permutation (x :: l) (insert_by leb x l).
Proof.
  induction l as [|y rest IH]; simpl.
  - apply Permutation_refl.
  - destruct (leb x y).
    + apply Permutation_refl.
    + eapply Permutation_trans; [apply perm_swap|].
      now apply perm_skip.
Qed.

Lemma sort_by_perm {A : Type} (leb : A -> A -> bool) (l : list A) :
  Permutation l (sort_by leb l).
Proof.
  induction l as [|x rest IH]; simpl.
  - constructor.
  - eapply Permutation_trans; [|apply insert_by_perm].
    now apply perm_skip.
Qed.

(** ** The aggregate rows *)

(** Neither sort changes which aggregate rows there are. *)
Lemma fast_filter_perm (csv : DataFrame) (max_fat : MaxFat) :
  Permutation (count_groups (fat_filtered csv max_fat)) (fast_filter csv max_fat).
Proof.
  unfold fast_filter, sort_values, groupby_size.
  eapply Permutation_trans; apply sort_by_perm.
Qed.

Lemma fast_filter_spec (csv : DataFrame) (max_fat : MaxFat) (a : AggRow) :
  In a (fast_filter csv max_fat)
  <-> (1 <= num_foods a)%nat
      /\ num_foods a = count_key (a_key a) (fat_filtered csv max_fat).
Proof.
  rewrite <- count_groups_spec. split; apply Permutation_in.
  - apply Permutation_sym, fast_filter_perm.
  - apply fast_filter_perm.
Qed.

(** The rows that survive line 67, read off the records of the file. *)
Lemma fat_filtered_In (csv : DataFrame) (max_fat : MaxFat) (x : FilterRow) :
  In x (fat_filtered csv max_fat)
  <-> exists row, In row csv
        /\ x = project (add_bins row)
        /\ b_total_fat_10 (add_bins row) <= max_fat_value max_fat.
Proof.
  unfold fat_filtered, binned. rewrite filter_In, map_map, in_map_iff.
  unfold fat_ok. rewrite Z.leb_le. split.
  - intros [(row & <- & HIn) Hle]. exists row. auto.
  - intros (row & HIn & -> & Hle). split; [|exact Hle].
    exists row. auto.
Qed.

Lemma group_appears (csv : DataFrame) (max_fat : MaxFat) (k : Key) :
  In k (map a_key (fast_filter csv max_fat))
  <-> exists row, In row csv
        /\ supports (fst k) (max_fat_value max_fat) (snd k) row.
Proof.
  rewrite in_map_iff. split.
  - intros (a & <- & HIn). apply fast_filter_spec in HIn.
    destruct HIn as [H1 HC]. rewrite HC in H1.
    apply count_key_pos in H1. destruct H1 as (x & Hx & E).
    apply fat_filtered_In in Hx. destruct Hx as (row & HIn & -> & Hle).
    exists row. split; [assumption|].
    unfold supports. rewrite <- E. unfold key_of, project. simpl. auto.
  - intros (row & HIn & HL & Hle & HB).
    set (n := count_key k (fat_filtered csv max_fat)).
    exists (mkAgg (fst k) (snd k) n). split.
    + now destruct k.
    + apply fast_filter_spec. simpl.
      replace (a_key (mkAgg (fst k) (snd k) n)) with k by now destruct k.
      split; [|reflexivity].
      apply count_key_pos. exists (project (add_bins row)). split.
      * apply fat_filtered_In. exists row. auto.
      * unfold key_of, project. simpl. simpl in HL, HB.
        rewrite HL, HB. now destruct k.
Qed.

(** The relevant bins of the query [r]. *)
Lemma relevant_bin_spec (csv : DataFrame) (r : string) (max_fat : MaxFat)
      (bin : Z) :
  In bin (map a_calories_100 (fast_rest csv r max_fat))
  <-> exists row, In row csv /\ supports r (max_fat_value max_fat) bin row.
Proof.
  rewrite <- (group_appears csv max_fat (r, bin)).
  unfold fast_rest. rewrite !in_map_iff. split.
  - intros (a & <- & HIn). apply filter_In in HIn. destruct HIn as [HIn E].
    apply String.eqb_eq in E. exists a. split; [|assumption].
    unfold a_key. now rewrite E.
  - intros (a & E & HIn). inversion E. subst. exists a. split; [reflexivity|].
    apply filter_In. split; [assumption|]. apply String.eqb_refl.
Qed.

Lemma isin_In (z : Z) (values : list Z) : isin z values = true <-> In z values.
Proof.
  unfold isin. rewrite existsb_exists. split.
  - intros (y & HIn & E). apply Z.eqb_eq in E. now subst.
  - intros HIn. exists z. split; [assumption|]. apply Z.eqb_refl.
Qed.

Lemma shares_bin_spec (csv : DataFrame) (r : string) (limit bin : Z) :
  shares_bin csv r limit bin = true
  <-> exists row, In row csv /\ supports r limit bin row.
Proof.
  unfold shares_bin, supports. rewrite existsb_exists.
  split; intros (row & HIn & H); exists row; (split; [assumption|]).
  - rewrite !andb_true_iff, String.eqb_eq, Z.leb_le, Z.eqb_eq in H. tauto.
  - rewrite !andb_true_iff, String.eqb_eq, Z.leb_le, Z.eqb_eq. tauto.
Qed.

Lemma isin_shares_bin (csv : DataFrame) (r : string) (max_fat : MaxFat)
      (bin : Z) :
  isin bin (map a_calories_100 (fast_rest csv r max_fat))
  = shares_bin csv r (max_fat_value max_fat) bin.
Proof.
  apply eq_true_iff_eq.
  now rewrite isin_In, relevant_bin_spec, shares_bin_spec.
Qed.

Lemma fast_rest_nil (csv : DataFrame) (r : string) (max_fat : MaxFat) :
  (forall row, In row csv -> lower (restaurant row) = r ->
               max_fat_value max_fat < b_total_fat_10 (add_bins row)) ->
  fast_rest csv r max_fat = [].
Proof.
  intros H.
  destruct (fast_rest csv r max_fat) as [|a l] eqn:E; [reflexivity|].
  exfalso.
  assert (HIn : In (a_calories_100 a)
                  (map a_calories_100 (fast_rest csv r max_fat)))
    by (rewrite E; now left).
  apply relevant_bin_spec in HIn.
  destruct HIn as (row & HIn & HL & Hle & _).
  specialize (H row HIn HL). lia.
Qed.

Lemma local_network_no_bins (csv : DataFrame) (r : string) (max_fat : MaxFat) :
  fast_rest csv r max_fat = [] -> local_network csv r max_fat = [].
Proof.
  unfold local_network. intros ->. simpl.
  induction (binned csv) as [|b l IH]; simpl; [reflexivity|exact IH].
Qed.

(** ** Running the methods *)

Lemma extract_local_network_run (r : string) (max_fat : MaxFat)
      (disk : Disk) (st : Store) :
  extract_local_network r max_fat disk st
  = match disk "data/fastfood.csv" with
    | Some csv => Ok (local_network csv r max_fat, st)
    | None => Raise (FileNotFoundError "data/fastfood.csv")
    end.
Proof.
  unfold extract_local_network, bind, read_csv, ret.
  destruct (disk "data/fastfood.csv"); reflexivity.
Qed.

Lemma bind_extract_local_network {B : Type} (r : string) (max_fat : MaxFat)
      (k : list LocalRow -> M B) (disk : Disk) (st : Store) :
  (x <- extract_local_network r max_fat ;; k x) disk st
  = match disk "data/fastfood.csv" with
    | Some csv => k (local_network csv r max_fat) disk st
    | None => Raise (FileNotFoundError "data/fastfood.csv")
    end.
Proof.
  unfold bind at 1. rewrite extract_local_network_run.
  destruct (disk "data/fastfood.csv"); reflexivity.
Qed.

Lemma get_restaurants_run (disk : Disk) (df : DataFrame)
      (loc : option (list LocalRow)) :
  get_restaurants disk (mkStore (Some df) loc)
  = Ok (unique (map restaurant (map lower_restaurant df)),
        mkStore (Some (map lower_restaurant df)) loc).
Proof. reflexivity. Qed.

(** ** [unique] *)

Lemma existsb_eqb_In (x : string) (l : list string) :
  existsb (String.eqb x) l = true <-> In x l.
Proof.
  rewrite existsb_exists. split.
  - intros (y & HIn & E). apply String.eqb_eq in E. now subst.
  - intros HIn. exists x. split; [assumption|]. apply String.eqb_refl.
Qed.

Lemma unique_from_In (s : string) (l : list string) :
  forall seen, In s (unique_from seen l) <-> In s l /\ ~ In s seen.
Proof.
  induction l as [|x l IH]; intros seen; simpl.
  - tauto.
  - destruct (existsb (String.eqb x) seen) eqn:E.
    + apply existsb_eqb_In in E. rewrite IH.
      split; [tauto|]. intros [[->|H] Hn]; tauto.
    + assert (Hx : ~ In x seen).
      { intros H. apply existsb_eqb_In in H. congruence. }
      simpl. rewrite IH. simpl.
      destruct (String.eqb_spec x s) as [->|Hne]; [tauto|].
      split.
      * intros [H|[H Hn]]; [contradiction|]. split; [tauto|].
        intros H'. apply Hn. now right.
      * intros [[H|H] Hn]; [contradiction|]. right. split; [assumption|].
        intros [H'|H']; [contradiction|contradiction].
Qed.

Lemma unique_from_NoDup (l : list string) :
  forall seen, NoDup (unique_from seen l).
Proof.
  induction l as [|x l IH]; intros seen; simpl.
  - constructor.
  - destruct (existsb (String.eqb x) seen).
    + apply IH.
    + constructor; [|apply IH].
      rewrite unique_from_In. simpl. tauto.
Qed.

(** ** Bins *)


Lemma floor_to_unique (w x b1 b2 : Z) :
  0 < w -> floor_to w x b1 -> floor_to w x b2 -> b1 = b2.
Proof.
  intros Hw (q1 & -> & H1) (q2 & -> & H2).
  assert (q1 = q2) by nia. now subst.
Qed.

(** ** Counts under two thresholds *)

Lemma count_key_monotone (k : Key) (csv : DataFrame) (f1 f2 : MaxFat) :
  max_fat_value f1 <= max_fat_value f2 ->
  (count_key k (fat_filtered csv f1) <= count_key k (fat_filtered csv f2))%nat.
Proof.
  intros Hle. unfold count_key, fat_filtered.
  induction (map project (binned csv)) as [|x l IH]; simpl.
  - lia.
  - destruct (fat_ok (max_fat_value f1) x) eqn:E1;
      destruct (fat_ok (max_fat_value f2) x) eqn:E2; simpl.
    + destruct (key_eqb (key_of x) k); simpl; lia.
    + unfold fat_ok in E1, E2.
      apply Z.leb_le in E1. apply Z.leb_gt in E2. lia.
    + destruct (key_eqb (key_of x) k); simpl; lia.
    + exact IH.
Qed.

Lemma fast_rest_In (csv : DataFrame) (r : string) (max_fat : MaxFat)
      (a : AggRow) :
  In a (fast_rest csv r max_fat)
  <-> a_restaurant a = r
      /\ (1 <= num_foods a)%nat
      /\ num_foods a = count_key (a_key a) (fat_filtered csv max_fat).
Proof.
  unfold fast_rest. rewrite filter_In, fast_filter_spec, String.eqb_eq. tauto.
Qed.

Lemma fat_filtered_lowered (csv : DataFrame) (max_fat : MaxFat) :
  fat_filtered (map lower_restaurant csv) max_fat = fat_filtered csv max_fat.
Proof.
  unfold fat_filtered, binned. f_equal. rewrite !map_map.
  apply map_ext. intros row. unfold project, add_bins. simpl.
  now rewrite lower_idem.
Qed.

Lemma fast_rest_not_lowercase (csv : DataFrame) (r : string) (max_fat : MaxFat) :
  lower r <> r -> fast_rest csv r max_fat = [].
Proof.
  intros Hne.
  destruct (fast_rest csv r max_fat) as [|a l] eqn:E; [reflexivity|].
  exfalso.
  assert (HIn : In (a_calories_100 a)
                  (map a_calories_100 (fast_rest csv r max_fat)))
    by (rewrite E; now left).
  apply relevant_bin_spec in HIn.
  destruct HIn as (row & _ & HL & _).
  apply Hne. rewrite <- HL. apply lower_idem.
Qed.

Lemma local_network_shares_bin (csv : DataFrame) (r : string) (max_fat : MaxFat) :
  local_network csv r max_fat
  = map render
      (filter (fun b => shares_bin csv r (max_fat_value max_fat) (b_calories_100 b))
              (binned csv)).
Proof.
  unfold local_network. f_equal. apply filter_ext.
  intros b. apply isin_shares_bin.
Qed.

Lemma local_network_In_row (csv : DataFrame) (r : string) (max_fat : MaxFat)
      (o : LocalRow) :
  In o (local_network csv r max_fat) ->
  exists row, In row csv /\ o = render (add_bins row).
Proof.
  unfold local_network, binned. rewrite in_map_iff.
  intros (b & <- & HIn). apply filter_In in HIn. destruct HIn as [HIn _].
  apply in_map_iff in HIn. destruct HIn as (row & <- & HIn).
  exists row. auto.
Qed.

Lemma rows_of_selection (values : list Z) (csv : DataFrame) :
  map l_row
    (map render
       (filter (fun b => isin (b_calories_100 b) values) (map add_bins csv)))
  = filter (fun row => isin (b_calories_100 (add_bins row)) values) csv.
Proof.
  induction csv as [|row rest IH]; simpl.
  - reflexivity.
  - destruct (isin (wrap64 (calories row / 100 * 100)) values); simpl.
    + now rewrite IH.
    + exact IH.
Qed.

(** ** Bins that fit in int64 *)

Lemma wrap64_small (z : Z) : - 2 ^ 63 <= z < 2 ^ 63 -> wrap64 z = z.
Proof.
  intros H. unfold wrap64. rewrite Z.mod_small; lia.
Qed.

Lemma calories_bin_in_range (c : Z) :
  min_calories <= c < 2 ^ 63 -> wrap64 (c / 100 * 100) = c / 100 * 100.
Proof.
  unfold min_calories. intros H. apply wrap64_small.
  pose proof (Z.div_mod c 100 ltac:(lia)) as Hd.
  pose proof (Z.mod_pos_bound c 100 ltac:(lia)) as Hb.
  lia.
Qed.

Lemma total_fat_bin_in_range (t : Z) :
  min_total_fat <= t < 2 ^ 63 -> wrap64 (t / 5 * 5) = t / 5 * 5.
Proof.
  unfold min_total_fat. intros H. apply wrap64_small.
  pose proof (Z.div_mod t 5 ltac:(lia)) as Hd.
  pose proof (Z.mod_pos_bound t 5 ltac:(lia)) as Hb.
  lia.
Qed.


(** * The claims *)

(** C1, as stated, fails: the query ["McDonalds"] and its lowercase form
    do not return the same rows, because line 76 compares the lowercased
    stored names with the query as it was passed. *)
Lemma extract_query_case_counterexample :
  extract_local_network "McDonalds" (Num 15) (disk_of mixed_case_csv) empty_store
  <> extract_local_network (lower "McDonalds") (Num 15)
       (disk_of mixed_case_csv) empty_store.
Proof. vm_compute. discriminate. Qed.

(** C1, amended: only the stored restaurant column is lowercased before
    the comparison; the query is compared as given.  So the call with [r]
    agrees with the call with [lower r] when [r] is already lowercase and
    returns no row otherwise, and the aggregate rows selected for a query
    do not depend on how the stored names are capitalised. *)
Theorem extract_query_compared_as_given
        (csv : DataFrame) (r : string) (max_fat : MaxFat) :
  local_network csv r max_fat
  = (if String.eqb (lower r) r
     then local_network csv (lower r) max_fat
     else [])
  /\ fast_rest (map lower_restaurant csv) r max_fat = fast_rest csv r max_fat.
Proof.
  split.
  - destruct (String.eqb_spec (lower r) r) as [E|Hne].
    + now rewrite E.
    + apply local_network_no_bins, fast_rest_not_lowercase, Hne.
  - unfold fast_rest, fast_filter. now rewrite fat_filtered_lowered.
Qed.



(** C3, as stated, fails: [get_restaurants] writes the lowercased names
    into the stored table. *)
Lemma get_restaurants_mutates_counterexample :
  exists names st',
    get_restaurants (disk_of mixed_case_csv)
                    (mkStore (Some mixed_case_csv) None)
    = Ok (names, st')
    /\ fast st' <> Some mixed_case_csv.
Proof.
  eexists. eexists. split.
  - rewrite get_restaurants_run. reflexivity.
  - vm_compute. discriminate.
Qed.

(** C3, amended: [get_restaurants] returns the distinct lowercased
    restaurant names and overwrites the restaurant column of the stored
    table with its lowercased form; the other columns, the rows and their
    order stay as they were, and [extract_local_network] leaves the
    stored table as it found it.  The lowercased names are written out
    for a table with ASCII names. *)
Theorem get_restaurants_effect
        (disk : Disk) (df : DataFrame) (loc : option (list LocalRow)) :
  ascii_names df ->
  let lowered := map (fun row => lower (restaurant row)) df in
  get_restaurants disk (mkStore (Some df) loc)
  = Ok (unique lowered, mkStore (Some (map lower_restaurant df)) loc)
  /\ NoDup (unique lowered)
  /\ (forall s, In s (unique lowered) <-> In s lowered)
  /\ map restaurant (map lower_restaurant df) = lowered
  /\ map calories (map lower_restaurant df) = map calories df
  /\ map total_fat (map lower_restaurant df) = map total_fat df
  /\ map others (map lower_restaurant df) = map others df
  /\ (forall r max_fat,
        match extract_local_network r max_fat disk (mkStore (Some df) loc) with
        | Ok (_, st') => fast st' = Some df
        | Raise _ => True
        end).
Proof.
  intros _ lowered.
  assert (E : map restaurant (map lower_restaurant df) = lowered).
  { unfold lowered. rewrite map_map. reflexivity. }
  repeat split.
  - rewrite get_restaurants_run, E. reflexivity.
  - apply unique_from_NoDup.
  - unfold unique. rewrite unique_from_In. tauto.
  - unfold unique. rewrite unique_from_In. simpl. tauto.
  - exact E.
  - rewrite map_map. reflexivity.
  - rewrite map_map. reflexivity.
  - rewrite map_map. reflexivity.
  - intros r max_fat. rewrite extract_local_network_run.
    destruct (disk "data/fastfood.csv"); [reflexivity|exact I].
Qed.

Lemma get_restaurants_effect_witness :
  ascii_names mixed_case_csv
  /\ get_restaurants (disk_of mixed_case_csv)
                     (mkStore (Some mixed_case_csv) None)
     = Ok (["mcdonalds"; "wendys"],
           mkStore (Some (map lower_restaurant mixed_case_csv)) None).
Proof.
  assert (H : ascii_names mixed_case_csv) by (repeat constructor).
  split; [exact H|].
  exact (proj1 (get_restaurants_effect (disk_of mixed_case_csv)
                  mixed_case_csv None H)).
Defined.




(** C5: for a file with ASCII names, a restaurant name that is not among
    the lowercased names of the file (as given, or after lowercasing it)
    has no relevant bin, and the call returns the empty table without
    raising. *)
Theorem unknown_restaurant_empty
        (disk : Disk) (st : Store) (csv : DataFrame)
        (r : string) (max_fat : MaxFat) :
  disk "data/fastfood.csv" = Some csv ->
  ascii_names csv ->
  ~ In r (map (fun row => lower (restaurant row)) csv)
  \/ ~ In (lower r) (map (fun row => lower (restaurant row)) csv) ->
  map a_calories_100 (fast_rest csv r max_fat) = []
  /\ extract_local_network r max_fat disk st = Ok ([], st).
Proof.
  intros Hdisk _ Hno.
  assert (Habsent : forall row, In row csv -> lower (restaurant row) <> r).
  { intros row HIn E. destruct Hno as [Hno|Hno]; apply Hno; apply in_map_iff.
    - exists row. auto.
    - exists row. split; [|assumption]. rewrite <- E. symmetry. apply lower_idem. }
  assert (Hnil : fast_rest csv r max_fat = []).
  { apply fast_rest_nil. intros row HIn E. exfalso. now apply (Habsent row). }
  split.
  - now rewrite Hnil.
  - rewrite extract_local_network_run, Hdisk.
    now rewrite (local_network_no_bins csv r max_fat Hnil).
Qed.

Lemma unknown_restaurant_empty_witness :
  disk_of example_csv "data/fastfood.csv" = Some example_csv
  /\ ascii_names example_csv
  /\ ~ In "subway" (map (fun row => lower (restaurant row)) example_csv)
  /\ map a_calories_100 (fast_rest example_csv "subway" (Num 15)) = []
  /\ extract_local_network "subway" (Num 15) (disk_of example_csv) empty_store
     = Ok ([], empty_store).
Proof.
  assert (Hno : ~ In "subway"
                  (map (fun row => lower (restaurant row)) example_csv)).
  { simpl. intros [H|[H|[H|[]]]]; discriminate. }
  assert (Hascii : ascii_names example_csv) by (repeat constructor).
  split; [reflexivity|]. split; [exact Hascii|]. split; [exact Hno|].
  apply (unknown_restaurant_empty (disk_of example_csv) empty_store
           example_csv "subway" (Num 15)).
  - reflexivity.
  - exact Hascii.
  - left. exact Hno.
Defined.

(** C6: raising the threshold never loses a relevant calorie bin of the
    restaurant, and the count of each of its bins does not decrease. *)
Theorem relevant_bins_monotone
        (csv : DataFrame) (r : string) (f1 f2 : MaxFat) :
  max_fat_value f1 <= max_fat_value f2 ->
  incl (map a_calories_100 (fast_rest csv r f1))
       (map a_calories_100 (fast_rest csv r f2))
  /\ Forall (fun a1 =>
               exists a2, In a2 (fast_rest csv r f2)
                          /\ a_calories_100 a2 = a_calories_100 a1
                          /\ (num_foods a1 <= num_foods a2)%nat)
            (fast_rest csv r f1).
Proof.
  intros Hle.
  assert (Step : forall a1, In a1 (fast_rest csv r f1) ->
            exists a2, In a2 (fast_rest csv r f2)
                       /\ a_calories_100 a2 = a_calories_100 a1
                       /\ (num_foods a1 <= num_foods a2)%nat).
  { intros a1 HIn. apply fast_rest_In in HIn. destruct HIn as (Hr & H1 & HC).
    pose proof (count_key_monotone (a_key a1) csv f1 f2 Hle) as Hmono.
    exists (mkAgg (a_restaurant a1) (a_calories_100 a1)
                  (count_key (a_key a1) (fat_filtered csv f2))).
    split; [|split].
    - apply fast_rest_In. simpl. split; [assumption|].
      split; [lia|reflexivity].
    - reflexivity.
    - simpl. lia. }
  split.
  - intros bin HIn. apply in_map_iff in HIn. destruct HIn as (a1 & <- & HIn).
    destruct (Step a1 HIn) as (a2 & HIn2 & E & _).
    rewrite <- E. now apply in_map.
  - apply Forall_forall. exact Step.
Qed.

Lemma relevant_bins_monotone_witness :
  max_fat_value (Num 15) <= max_fat_value (IntSlider 40)
  /\ incl (map a_calories_100 (fast_rest example_csv "mcdonalds" (Num 15)))
          (map a_calories_100 (fast_rest example_csv "mcdonalds" (IntSlider 40)))
  /\ Forall (fun a1 =>
               exists a2, In a2 (fast_rest example_csv "mcdonalds" (IntSlider 40))
                          /\ a_calories_100 a2 = a_calories_100 a1
                          /\ (num_foods a1 <= num_foods a2)%nat)
            (fast_rest example_csv "mcdonalds" (Num 15)).
Proof.
  split.
  - simpl. lia.
  - apply (relevant_bins_monotone example_csv "mcdonalds" (Num 15) (IntSlider 40)).
    simpl. lia.
Defined.

(** C7: the fat filter runs before the aggregation.  For a file with
    ASCII names: every aggregate row counts at least one record that
    passed the filter; a group (restaurant, calorie bin) all of whose
    records fail the filter has no aggregate row; and a restaurant none
    of whose records passes the filter gets the empty table.  The bins
    are the ones the code computes for the record. *)
Theorem fat_filter_before_aggregation
        (csv : DataFrame) (max_fat : MaxFat) (r : string) (bin : Z) :
  ascii_names csv ->
  Forall (fun a =>
            exists row, In row csv
              /\ supports (a_restaurant a) (max_fat_value max_fat)
                          (a_calories_100 a) row)
         (fast_filter csv max_fat)
  /\ ((forall row, In row csv -> lower (restaurant row) = r ->
                   b_calories_100 (add_bins row) = bin ->
                   max_fat_value max_fat < b_total_fat_10 (add_bins row)) ->
      ~ In (r, bin) (map a_key (fast_filter csv max_fat)))
  /\ ((forall row, In row csv -> lower (restaurant row) = r ->
                   max_fat_value max_fat < b_total_fat_10 (add_bins row)) ->
      local_network csv r max_fat = []).
Proof.
  intros _. split; [|split].
  - apply Forall_forall. intros a HIn.
    apply (group_appears csv max_fat (a_key a)).
    now apply in_map.
  - intros Hfail HIn. apply group_appears in HIn.
    destruct HIn as (row & HIn & HL & Hle & HB).
    specialize (Hfail row HIn HL HB). lia.
  - intros Hfail. apply local_network_no_bins, fast_rest_nil, Hfail.
Qed.

Lemma fat_filter_before_aggregation_witness :
  ascii_names example_csv
  /\ (forall row, In row example_csv -> lower (restaurant row) = "mcdonalds" ->
                  max_fat_value (Num 5) < b_total_fat_10 (add_bins row))
  /\ ~ In ("mcdonalds", 300) (map a_key (fast_filter example_csv (Num 5)))
  /\ local_network example_csv "mcdonalds" (Num 5) = [].
Proof.
  assert (Hascii : ascii_names example_csv) by (repeat constructor).
  assert (Hfail : forall row, In row example_csv ->
                    lower (restaurant row) = "mcdonalds" ->
                    max_fat_value (Num 5) < b_total_fat_10 (add_bins row)).
  { intros row [<-|[<-|[<-|[]]]] E.
    - vm_compute. reflexivity.
    - vm_compute. reflexivity.
    - discriminate E. }
  split; [exact Hascii|]. split; [exact Hfail|].
  destruct (fat_filter_before_aggregation example_csv (Num 5) "mcdonalds" 300
              Hascii)
    as (_ & Hgroup & Hrest).
  split.
  - apply Hgroup. intros row HIn E _. now apply Hfail.
  - apply Hrest. exact Hfail.
Defined.

(** C8: two calls with the same arguments, the file unchanged, return the
    same table; so does a second call made after [get_restaurants] or
    after [get_catalog] ran in between. *)
Theorem extract_twice_same
        (r : string) (max_fat : MaxFat) (disk : Disk) (st : Store) :
  (x <- extract_local_network r max_fat ;;
   y <- extract_local_network r max_fat ;;
   ret (x, y)) disk st
  = (x <- extract_local_network r max_fat ;; ret (x, x)) disk st
  /\ (x <- extract_local_network r max_fat ;;
      get_restaurants ;;;
      y <- extract_local_network r max_fat ;;
      ret (x, y)) disk st
     = (x <- extract_local_network r max_fat ;;
        get_restaurants ;;;
        ret (x, x)) disk st
  /\ (x <- extract_local_network r max_fat ;;
      get_catalog r max_fat ;;;
      y <- extract_local_network r max_fat ;;
      ret (x, y)) disk st
     = (x <- extract_local_network r max_fat ;;
        get_catalog r max_fat ;;;
        ret (x, x)) disk st.
Proof.
  rewrite !bind_extract_local_network.
  destruct (disk "data/fastfood.csv") as [csv|] eqn:D; [|auto].
  repeat split.
  - now rewrite bind_extract_local_network, D.
  - unfold bind at 1 3.
    destruct (get_restaurants disk st) as [[names st']|e]; [|reflexivity].
    now rewrite bind_extract_local_network, D.
  - unfold bind at 1 3.
    destruct (get_catalog r max_fat disk st) as [[rows st']|e]; [|reflexivity].
    now rewrite bind_extract_local_network, D.
Qed.

(** C9: each call reads the table from ["data/fastfood.csv"]; what it
    returns does not depend on the store (the cached table and [local]),
    and the store after the call is the store before it. *)
Theorem extract_independent_of_store
        (r : string) (max_fat : MaxFat) (disk : Disk) (st1 st2 : Store) :
  match extract_local_network r max_fat disk st1,
        extract_local_network r max_fat disk st2,
        disk "data/fastfood.csv" with
  | Ok (rows1, st1'), Ok (rows2, st2'), Some csv =>
      rows1 = local_network csv r max_fat
      /\ rows2 = rows1 /\ st1' = st1 /\ st2' = st2
  | Raise e1, Raise e2, None =>
      e1 = FileNotFoundError "data/fastfood.csv" /\ e2 = e1
  | _, _, _ => False
  end.
Proof.
  rewrite !extract_local_network_run.
  destruct (disk "data/fastfood.csv"); auto.
Qed.

(** C10: the returned rows are records of the file as they were read, in
    file order, so the restaurant keeps the capitalisation of the file;
    their [calories_100] cell is the decimal string of the calorie bin
    computed for the record, and reading the string gives the bin back. *)
Theorem returned_rows_keep_names
        (csv : DataFrame) (r : string) (max_fat : MaxFat) :
  map l_row (local_network csv r max_fat)
  = filter (fun row =>
              isin (b_calories_100 (add_bins row))
                   (map a_calories_100 (fast_rest csv r max_fat)))
           csv
  /\ Forall (fun o =>
               l_calories_100 o
               = NilZero.string_of_int
                   (Z.to_int (b_calories_100 (add_bins (l_row o))))
               /\ option_map Z.of_int
                             (NilZero.int_of_string (l_calories_100 o))
                  = Some (b_calories_100 (add_bins (l_row o))))
            (local_network csv r max_fat)
  /\ local_network mixed_case_csv "mcdonalds" (IntSlider 15)
     = [ mkLocal (mkRow "McDonalds" 350 12 ["Cheeseburger"]) "300" 10;
         mkLocal (mkRow "Wendys" 320 41 ["Baconator"]) "300" 40 ].
Proof.
  split; [|split].
  - unfold local_network, binned. apply rows_of_selection.
  - apply Forall_forall. intros o HIn.
    apply local_network_In_row in HIn. destruct HIn as (row & _ & ->).
    split.
    + reflexivity.
    + apply str_of_int_read_back.
  - reflexivity.
Qed.

(** * Further properties of the code *)

(** ** Helpers *)

Lemma local_network_In (csv : DataFrame) (r : string) (max_fat : MaxFat)
      (o : LocalRow) :
  In o (local_network csv r max_fat)
  <-> exists row, In row csv
        /\ o = render (add_bins row)
        /\ exists peer, In peer csv
             /\ supports r (max_fat_value max_fat)
                         (b_calories_100 (add_bins row)) peer.
Proof.
  rewrite local_network_shares_bin. unfold binned.
  rewrite in_map_iff. split.
  - intros (b & <- & HIn). apply filter_In in HIn. destruct HIn as [HIn Hb].
    apply in_map_iff in HIn. destruct HIn as (row & <- & HIn).
    exists row. split; [assumption|]. split; [reflexivity|].
    now apply shares_bin_spec.
  - intros (row & HIn & -> & Hpeer). exists (add_bins row).
    split; [reflexivity|]. apply filter_In. split.
    + now apply in_map.
    + now apply shares_bin_spec.
Qed.

Lemma lower_restaurant_idem (df : DataFrame) :
  map lower_restaurant (map lower_restaurant df) = map lower_restaurant df.
Proof.
  rewrite map_map. apply map_ext. intros row.
  unfold lower_restaurant. simpl. now rewrite lower_idem.
Qed.

Lemma total_foods_bump (k : Key) (groups : list AggRow) :
  total_foods (bump k groups) = S (total_foods groups).
Proof.
  induction groups as [|a rest IH]; simpl.
  - reflexivity.
  - destruct (key_eqb k (a_key a)); simpl.
    + reflexivity.
    + rewrite IH. lia.
Qed.

Lemma total_foods_perm (l1 l2 : list AggRow) :
  Permutation l1 l2 -> total_foods l1 = total_foods l2.
Proof.
  induction 1; simpl; lia.
Qed.

Lemma fat_bin_le_limit (t limit : Z) :
  t / 5 * 5 <= limit <-> t / 5 * 5 <= limit / 5 * 5.
Proof.
  pose proof (Z.div_mod limit 5 ltac:(lia)) as Hl.
  pose proof (Z.mod_pos_bound limit 5 ltac:(lia)) as Hb.
  lia.
Qed.

Lemma fat_bin_le_grams (t limit : Z) :
  t / 5 * 5 <= limit <-> t < limit / 5 * 5 + 5.
Proof.
  pose proof (Z.div_mod limit 5 ltac:(lia)) as Hl.
  pose proof (Z.mod_pos_bound limit 5 ltac:(lia)) as Hb.
  pose proof (Z.div_mod t 5 ltac:(lia)) as Ht.
  pose proof (Z.mod_pos_bound t 5 ltac:(lia)) as Htb.
  lia.
Qed.

Lemma filter_map_length {A B : Type} (f : A -> B) (p : B -> bool)
      (l : list A) :
  List.length (filter p (map f l))
  = List.length (filter (fun x => p (f x)) l).
Proof.
  induction l as [|x rest IH]; simpl.
  - reflexivity.
  - destruct (p (f x)); simpl; congruence.
Qed.

(** Insertion sort, for an order that is total and transitive. *)
Section SortBy.
Context {A : Type}.
Variable leb : A -> A -> bool.
Hypothesis leb_total : forall a b, leb a b = true \/ leb b a = true.
Hypothesis leb_trans :
  forall a b c, leb a b = true -> leb b c = true -> leb a c = true.

Lemma insert_by_sorted (x : A) (l : list A) :
  StronglySorted (fun a b => leb a b = true) l ->
  StronglySorted (fun a b => leb a b = true) (insert_by leb x l).
Proof.
  induction l as [|y rest IH]; simpl; intros HS.
  - constructor; constructor.
  - inversion HS as [|? ? HS' HF]; subst.
    destruct (leb x y) eqn:E.
    + constructor; [assumption|].
      constructor; [assumption|].
      rewrite Forall_forall in *. intros z Hz.
      apply (leb_trans x y z E). now apply HF.
    + constructor; [now apply IH|].
      rewrite Forall_forall in *. intros z Hz.
      apply (Permutation_in z (Permutation_sym (insert_by_perm leb x rest)))
        in Hz.
      destruct Hz as [<-|Hz].
      * destruct (leb_total x y) as [H|H]; congruence.
      * now apply HF.
Qed.

Lemma sort_by_sorted (l : list A) :
  StronglySorted (fun a b => leb a b = true) (sort_by leb l).
Proof.
  induction l as [|x rest IH]; simpl.
  - constructor.
  - now apply insert_by_sorted.
Qed.
End SortBy.

Lemma unique_from_ext (l : list string) :
  forall s1 s2, (forall z, In z s1 <-> In z s2) ->
                unique_from s1 l = unique_from s2 l.
Proof.
  induction l as [|x rest IH]; intros s1 s2 Hs; simpl.
  - reflexivity.
  - assert (E : existsb (String.eqb x) s1 = existsb (String.eqb x) s2).
    { apply eq_true_iff_eq. rewrite !existsb_eqb_In. apply Hs. }
    rewrite E. destruct (existsb (String.eqb x) s2).
    + now apply IH.
    + f_equal. apply IH. intros z. simpl. rewrite Hs. tauto.
Qed.

Lemma unique_from_drop (x : string) (l : list string) :
  forall seen,
    unique_from (x :: seen) l
    = unique_from seen (filter (fun y => negb (String.eqb y x)) l).
Proof.
  induction l as [|y rest IH]; intros seen; simpl.
  - reflexivity.
  - destruct (String.eqb y x) eqn:E; simpl.
    + apply IH.
    + destruct (existsb (String.eqb y) seen).
      * apply IH.
      * f_equal. rewrite <- IH. apply unique_from_ext.
        intros z. simpl. tauto.
Qed.

Lemma StronglySorted_weaken {A : Type} (R R' : A -> A -> Prop) (l : list A) :
  (forall a b, R a b -> R' a b) -> StronglySorted R l -> StronglySorted R' l.
Proof.
  intros HR. induction 1 as [|a l HS IH HF]; constructor.
  - exact IH.
  - rewrite Forall_forall in *. intros b Hb. apply HR. now apply HF.
Qed.

Lemma fat_filtered_length (csv : DataFrame) (max_fat : MaxFat) :
  List.length (fat_filtered csv max_fat)
  = List.length
      (filter (fun row =>
                 b_total_fat_10 (add_bins row) <=? max_fat_value max_fat)
              csv).
Proof.
  unfold fat_filtered, binned. rewrite map_map, filter_map_length.
  reflexivity.
Qed.

Lemma counted_in_steps (limit : Z) (a : AggRow) (row : Row) :
  counted_in limit a row
  = fat_ok limit (project (add_bins row))
    && key_eqb (key_of (project (add_bins row))) (a_key a).
Proof.
  unfold counted_in, fat_ok, key_eqb, key_of, a_key. simpl.
  now rewrite andb_comm.
Qed.

Lemma count_key_on_records (csv : DataFrame) (max_fat : MaxFat) (a : AggRow) :
  count_key (a_key a) (fat_filtered csv max_fat)
  = List.length (filter (counted_in (max_fat_value max_fat) a) csv).
Proof.
  unfold count_key, fat_filtered, binned.
  induction csv as [|row rest IH].
  - reflexivity.
  - cbn [map filter]. rewrite counted_in_steps.
    destruct (fat_ok (max_fat_value max_fat) (project (add_bins row)));
      cbn [filter andb].
    + destruct (key_eqb (key_of (project (add_bins row))) (a_key a));
        cbn [List.length]; now rewrite IH.
    + exact IH.
Qed.

(** ** [load_fast] and [get_restaurants] *)

(** X1: [get_restaurants] needs a loaded table: on a fresh object it raises
    [AttributeError]; a missing file makes [load_fast] raise, and
    [get_restaurants] is not reached; after [load_fast] of a readable
    file with ASCII names it returns the distinct lowercased names of
    that file and leaves the lowercased table in [self.fast]. *)
Theorem load_fast_then_get_restaurants
        (filename : string) (disk : Disk) (st : Store) :
  get_restaurants disk (mkStore None (local st)) = Raise (AttributeError "fast")
  /\ (disk filename = None ->
      (load_fast filename ;;; get_restaurants) disk st
      = Raise (FileNotFoundError filename))
  /\ (forall df,
        disk filename = Some df ->
        ascii_names df ->
        (load_fast filename ;;; get_restaurants) disk st
        = Ok (unique (map (fun row => lower (restaurant row)) df),
              mkStore (Some (map lower_restaurant df)) (local st))).
Proof.
  split; [reflexivity|].
  split.
  - intros D. unfold bind at 1, load_fast, bind, read_csv, set_fast.
    now rewrite D.
  - intros df D _. unfold bind at 1, load_fast, bind, read_csv, set_fast.
    rewrite D. simpl. rewrite get_restaurants_run, map_map. reflexivity.
Qed.

Lemma load_fast_then_get_restaurants_witness :
  disk_of mixed_case_csv "data/fastfood.csv" = Some mixed_case_csv
  /\ ascii_names mixed_case_csv
  /\ (load_fast "data/fastfood.csv" ;;; get_restaurants)
       (disk_of mixed_case_csv) empty_store
     = Ok (["mcdonalds"; "wendys"],
           mkStore (Some (map lower_restaurant mixed_case_csv)) None).
Proof.
  assert (H : ascii_names mixed_case_csv) by (repeat constructor).
  split; [reflexivity|]. split; [exact H|].
  exact (proj2 (proj2 (load_fast_then_get_restaurants "data/fastfood.csv"
                         (disk_of mixed_case_csv) empty_store))
           mixed_case_csv eq_refl H).
Defined.

(** X2: A second call of [get_restaurants] returns the same names as the
    first and leaves the store as the first call left it. *)
Theorem get_restaurants_twice (disk : Disk) (st : Store) :
  (a <- get_restaurants ;; b <- get_restaurants ;; ret (a, b)) disk st
  = (a <- get_restaurants ;; ret (a, a)) disk st.
Proof.
  destruct st as [[df|] loc]; [|reflexivity].
  unfold bind at 1 3. rewrite get_restaurants_run.
  unfold bind. rewrite get_restaurants_run, lower_restaurant_idem.
  reflexivity.
Qed.

(** X3: Every name [get_restaurants] returns is in lowercase, so it matches
    itself in the comparison of [extract_local_network]. *)
Theorem get_restaurants_lowercase (disk : Disk) (st : Store) :
  match get_restaurants disk st with
  | Ok (names, _) => Forall (fun s => lower s = s) names
  | Raise e => e = AttributeError "fast" /\ fast st = None
  end.
Proof.
  destruct st as [[df|] loc]; [|split; reflexivity].
  rewrite get_restaurants_run. apply Forall_forall. intros s HIn.
  unfold unique in HIn. apply unique_from_In in HIn. destruct HIn as [HIn _].
  rewrite map_map in HIn. apply in_map_iff in HIn.
  destruct HIn as (row & <- & _). simpl. apply lower_idem.
Qed.

(** X4: For a table with ASCII names, the names come in order of first
    appearance in the table: the lowercased restaurant of the first
    record comes first, followed by the names of the other records that
    differ from it. *)
Theorem get_restaurants_first_seen
        (disk : Disk) (row : Row) (rest : DataFrame)
        (loc : option (list LocalRow)) :
  ascii_names (row :: rest) ->
  get_restaurants disk (mkStore (Some (row :: rest)) loc)
  = Ok (lower (restaurant row)
          :: unique
               (filter (fun y => negb (String.eqb y (lower (restaurant row))))
                       (map (fun x => lower (restaurant x)) rest)),
        mkStore (Some (map lower_restaurant (row :: rest))) loc).
Proof.
  intros _. rewrite get_restaurants_run. rewrite map_map. simpl.
  unfold unique. simpl. now rewrite unique_from_drop.
Qed.

Lemma get_restaurants_first_seen_witness :
  ascii_names
    [ mkRow "Wendys" 320 41 []; mkRow "McDonalds" 350 12 [];
      mkRow "wendys" 780 9 [] ]
  /\ get_restaurants (disk_of example_csv)
       (mkStore (Some [ mkRow "Wendys" 320 41 []; mkRow "McDonalds" 350 12 [];
                        mkRow "wendys" 780 9 [] ]) None)
     = Ok (["wendys"; "mcdonalds"],
           mkStore (Some [ mkRow "wendys" 320 41 []; mkRow "mcdonalds" 350 12 [];
                           mkRow "wendys" 780 9 [] ]) None).
Proof.
  assert (H : ascii_names
                [ mkRow "Wendys" 320 41 []; mkRow "McDonalds" 350 12 [];
                  mkRow "wendys" 780 9 [] ]) by (repeat constructor).
  split; [exact H|].
  exact (get_restaurants_first_seen (disk_of example_csv) _ _ None H).
Defined.

(** X5: Every name [get_restaurants] offers for a table with ASCII names
    can be found by [extract_local_network] in that table: some record
    carries it, and that record is returned once the threshold reaches
    the fat bin computed for it. *)
Theorem offered_names_are_found
        (disk : Disk) (csv : DataFrame) (loc : option (list LocalRow)) :
  ascii_names csv ->
  match get_restaurants disk (mkStore (Some csv) loc) with
  | Ok (names, _) =>
      Forall (fun r =>
                exists row,
                  In row csv
                  /\ lower (restaurant row) = r
                  /\ forall max_fat,
                       b_total_fat_10 (add_bins row) <= max_fat_value max_fat ->
                       In (render (add_bins row))
                          (local_network csv r max_fat))
             names
  | Raise _ => False
  end.
Proof.
  intros _. rewrite get_restaurants_run.
  apply Forall_forall. intros r HIn.
  unfold unique in HIn. apply unique_from_In in HIn. destruct HIn as [HIn _].
  rewrite map_map in HIn. apply in_map_iff in HIn.
  destruct HIn as (row & HL & HIn). simpl in HL.
  exists row. split; [assumption|]. split; [assumption|].
  intros max_fat Hf. apply local_network_In. exists row.
  split; [assumption|]. split; [reflexivity|].
  exists row. split; [assumption|]. unfold supports. auto.
Qed.

Lemma offered_names_are_found_witness :
  ascii_names mixed_case_csv
  /\ match get_restaurants (disk_of mixed_case_csv)
                           (mkStore (Some mixed_case_csv) None) with
     | Ok (names, _) =>
         Forall (fun r =>
                   exists row,
                     In row mixed_case_csv
                     /\ lower (restaurant row) = r
                     /\ forall max_fat,
                          b_total_fat_10 (add_bins row) <= max_fat_value max_fat ->
                          In (render (add_bins row))
                             (local_network mixed_case_csv r max_fat))
                names
     | Raise _ => False
     end.
Proof.
  assert (H : ascii_names mixed_case_csv) by (repeat constructor).
  split; [exact H|].
  exact (offered_names_are_found (disk_of mixed_case_csv) mixed_case_csv None H).
Defined.

(** ** The aggregate rows of [extract_local_network] *)

(** X6: After line 73 the aggregate rows come in descending order of
    [num_foods]. *)
Theorem fast_filter_sorted_by_count (csv : DataFrame) (max_fat : MaxFat) :
  StronglySorted by_count_desc (fast_filter csv max_fat).
Proof.
  unfold fast_filter, sort_values.
  eapply StronglySorted_weaken;
    [|apply sort_by_sorted].
  - intros a b H. simpl in H. apply Nat.leb_le in H. exact H.
  - intros a b. simpl. rewrite !Nat.leb_le. lia.
  - intros a b c. simpl. rewrite !Nat.leb_le. lia.
Qed.

(** X7: There is one aggregate row per (restaurant, calorie bin). *)
Theorem fast_filter_keys_unique (csv : DataFrame) (max_fat : MaxFat) :
  NoDup (map a_key (fast_filter csv max_fat)).
Proof.
  eapply Permutation_NoDup.
  - apply Permutation_map, fast_filter_perm.
  - apply count_groups_well_grouped.
Qed.

(** X8: The counts of the aggregate rows add up to the number of records of
    the file whose fat bin, as the code computes it, passes the fat
    filter: each is counted once. *)
Theorem fast_filter_counts_total (csv : DataFrame) (max_fat : MaxFat) :
  total_foods (fast_filter csv max_fat)
  = List.length
      (filter (fun row =>
                 b_total_fat_10 (add_bins row) <=? max_fat_value max_fat)
              csv).
Proof.
  rewrite <- (total_foods_perm _ _ (fast_filter_perm csv max_fat)).
  rewrite <- fat_filtered_length.
  unfold count_groups.
  assert (G : forall rows groups,
            total_foods (fold_left (fun g x => bump (key_of x) g) rows groups)
            = (total_foods groups + List.length rows)%nat).
  { induction rows as [|x rows IH]; intros groups; simpl.
    - lia.
    - rewrite IH, total_foods_bump. lia. }
  rewrite G. reflexivity.
Qed.

(** X9: For a file with ASCII names, [num_foods] of an aggregate row is the
    number of records of the file with its lowercased restaurant and its
    calorie bin whose fat bin passes the filter, the bins being the ones
    the code computes. *)
Theorem fast_filter_counts_exact (csv : DataFrame) (max_fat : MaxFat) :
  ascii_names csv ->
  Forall (fun a =>
            num_foods a
            = List.length (filter (counted_in (max_fat_value max_fat) a) csv))
         (fast_filter csv max_fat).
Proof.
  intros _. apply Forall_forall. intros a HIn.
  apply fast_filter_spec in HIn. destruct HIn as [_ HC].
  now rewrite HC, count_key_on_records.
Qed.

Lemma fast_filter_counts_exact_witness :
  ascii_names example_csv
  /\ Forall (fun a =>
               num_foods a
               = List.length
                   (filter (counted_in (max_fat_value (Num 40)) a) example_csv))
            (fast_filter example_csv (Num 40)).
Proof.
  assert (H : ascii_names example_csv) by (repeat constructor).
  split; [exact H|].
  exact (fast_filter_counts_exact example_csv (Num 40) H).
Defined.

(** ** The table returned by [extract_local_network] *)

(** X10: Raising the threshold never removes a row from the returned table. *)
Theorem local_network_monotone
        (csv : DataFrame) (r : string) (f1 f2 : MaxFat) :
  max_fat_value f1 <= max_fat_value f2 ->
  incl (local_network csv r f1) (local_network csv r f2).
Proof.
  intros Hle o HIn. apply local_network_In in HIn.
  destruct HIn as (row & HIn & -> & peer & HP & HL & Hf & HB).
  apply local_network_In. exists row. split; [assumption|].
  split; [reflexivity|]. exists peer. split; [assumption|].
  unfold supports. repeat split; try assumption. lia.
Qed.

Lemma local_network_monotone_witness :
  max_fat_value (Num 5) <= max_fat_value (IntSlider 15)
  /\ incl (local_network example_csv "wendys" (Num 5))
          (local_network example_csv "wendys" (IntSlider 15)).
Proof.
  split.
  - simpl. lia.
  - apply (local_network_monotone example_csv "wendys" (Num 5) (IntSlider 15)).
    simpl. lia.
Defined.

(** X11: Every record with an ASCII name whose fat bin, as the code
    computes it, passes the fat filter is in the table returned for its
    own lowercased restaurant name, whatever the capitalisation of the
    stored name. *)
Theorem own_rows_returned
        (csv : DataFrame) (max_fat : MaxFat) (row : Row) :
  In row csv ->
  ascii_only (restaurant row) = true ->
  b_total_fat_10 (add_bins row) <= max_fat_value max_fat ->
  In (render (add_bins row))
     (local_network csv (lower (restaurant row)) max_fat).
Proof.
  intros HIn _ Hf. apply local_network_In. exists row.
  split; [assumption|]. split; [reflexivity|].
  exists row. split; [assumption|]. unfold supports. auto.
Qed.

Lemma own_rows_returned_witness :
  In (mkRow "McDonalds" 350 12 ["Cheeseburger"]) mixed_case_csv
  /\ ascii_only (restaurant (mkRow "McDonalds" 350 12 ["Cheeseburger"])) = true
  /\ b_total_fat_10 (add_bins (mkRow "McDonalds" 350 12 ["Cheeseburger"]))
     <= max_fat_value (Num 15)
  /\ In (render (add_bins (mkRow "McDonalds" 350 12 ["Cheeseburger"])))
        (local_network mixed_case_csv
           (lower (restaurant (mkRow "McDonalds" 350 12 ["Cheeseburger"])))
           (Num 15)).
Proof.
  assert (H1 : In (mkRow "McDonalds" 350 12 ["Cheeseburger"]) mixed_case_csv)
    by (simpl; auto).
  assert (H2 : b_total_fat_10
                 (add_bins (mkRow "McDonalds" 350 12 ["Cheeseburger"]))
               <= max_fat_value (Num 15))
    by (vm_compute; discriminate).
  split; [exact H1|]. split; [reflexivity|]. split; [exact H2|].
  exact (own_rows_returned mixed_case_csv (Num 15) _ H1 eq_refl H2).
Defined.

(** X12: The returned table is made of whole calorie bins: with one returned
    row come all the records of the file in its calorie bin. *)
Theorem local_network_whole_bins
        (csv : DataFrame) (r : string) (max_fat : MaxFat)
        (o : LocalRow) (row : Row) :
  In o (local_network csv r max_fat) ->
  In row csv ->
  calories row / 100 * 100 = calories (l_row o) / 100 * 100 ->
  In (render (add_bins row)) (local_network csv r max_fat).
Proof.
  intros Ho HIn HB. apply local_network_In in Ho.
  destruct Ho as (row0 & _ & -> & peer & HP & Hs).
  simpl in HB. apply local_network_In. exists row.
  split; [assumption|]. split; [reflexivity|].
  exists peer. split; [assumption|].
  unfold add_bins in *. simpl in *. now rewrite HB.
Qed.

Lemma local_network_whole_bins_witness :
  In (render (add_bins (mkRow "mcdonalds" 300 10 [])))
     (local_network example_csv "mcdonalds" (Num 15))
  /\ In (mkRow "wendys" 300 5 []) example_csv
  /\ In (render (add_bins (mkRow "wendys" 300 5 [])))
        (local_network example_csv "mcdonalds" (Num 15)).
Proof.
  assert (H1 : In (render (add_bins (mkRow "mcdonalds" 300 10 [])))
                 (local_network example_csv "mcdonalds" (Num 15)))
    by (vm_compute; auto).
  assert (H2 : In (mkRow "wendys" 300 5 []) example_csv)
    by (simpl; auto).
  split; [exact H1|]. split; [exact H2|].
  exact (local_network_whole_bins example_csv "mcdonalds" (Num 15) _ _
           H1 H2 eq_refl).
Defined.

(** X13: For a file with ASCII names, the returned table is empty exactly
    when no record of the queried restaurant has a fat bin, as the code
    computes it, that passes the fat filter. *)
Theorem local_network_empty_iff
        (csv : DataFrame) (r : string) (max_fat : MaxFat) :
  ascii_names csv ->
  local_network csv r max_fat = []
  <-> (forall row, In row csv -> lower (restaurant row) = r ->
                   max_fat_value max_fat < b_total_fat_10 (add_bins row)).
Proof.
  intros _. split.
  - intros Hnil row HIn HL.
    destruct (Z.lt_ge_cases (max_fat_value max_fat)
                            (b_total_fat_10 (add_bins row)))
      as [Hlt|Hge]; [assumption|].
    exfalso.
    assert (H : In (render (add_bins row)) (local_network csv r max_fat)).
    { apply local_network_In. exists row. split; [assumption|].
      split; [reflexivity|]. exists row. split; [assumption|].
      unfold supports. auto. }
    rewrite Hnil in H. contradiction.
  - intros Hfail. apply local_network_no_bins, fast_rest_nil, Hfail.
Qed.

Lemma local_network_empty_iff_witness :
  ascii_names example_csv
  /\ (local_network example_csv "wendys" (Num 0) = []
      <-> (forall row, In row example_csv -> lower (restaurant row) = "wendys" ->
                       max_fat_value (Num 0) < b_total_fat_10 (add_bins row))).
Proof.
  assert (H : ascii_names example_csv) by (repeat constructor).
  split; [exact H|].
  exact (local_network_empty_iff example_csv "wendys" (Num 0) H).
Defined.

(** X14: The fat filter written on the grams of a record.  For a file with
    ASCII names whose [total_fat] values are at least
    [-9223372036854775805] (no fat bin wraps in int64), a record passes
    the filter with threshold [limit] when its total fat is below the
    next multiple of 5 above [limit]; a threshold of 15 admits up to
    19 grams. *)
Theorem fat_filter_in_grams (csv : DataFrame) (max_fat : MaxFat) :
  ascii_names csv ->
  Forall (fun row => min_total_fat <= total_fat row < 2 ^ 63) csv ->
  fat_filtered csv max_fat
  = map (fun row => project (add_bins row))
        (filter (fun row => total_fat row <? max_fat_value max_fat / 5 * 5 + 5)
                csv).
Proof.
  intros _ Hrange. unfold fat_filtered, binned. rewrite map_map.
  induction csv as [|row rest IH].
  - reflexivity.
  - inversion Hrange as [|? ? Hrow Hrest]; subst.
    cbn [map filter].
    assert (E : fat_ok (max_fat_value max_fat) (project (add_bins row))
                = (total_fat row <? max_fat_value max_fat / 5 * 5 + 5)).
    { apply eq_true_iff_eq. unfold fat_ok, project, add_bins. simpl.
      rewrite (total_fat_bin_in_range _ Hrow).
      rewrite Z.leb_le, Z.ltb_lt. apply fat_bin_le_grams. }
    rewrite E.
    destruct (total_fat row <? max_fat_value max_fat / 5 * 5 + 5);
      cbn [map]; now rewrite (IH Hrest).
Qed.

Lemma fat_filter_in_grams_witness :
  ascii_names example_csv
  /\ Forall (fun row => min_total_fat <= total_fat row < 2 ^ 63) example_csv
  /\ fat_filtered example_csv (Num 12)
     = map (fun row => project (add_bins row))
           (filter (fun row => total_fat row <? max_fat_value (Num 12) / 5 * 5 + 5)
                   example_csv).
Proof.
  assert (H : ascii_names example_csv) by (repeat constructor).
  assert (R : Forall (fun row => min_total_fat <= total_fat row < 2 ^ 63)
                     example_csv).
  { repeat constructor; vm_compute; congruence. }
  split; [exact H|]. split; [exact R|].
  exact (fat_filter_in_grams example_csv (Num 12) H R).
Defined.

(** X15: When the [total_fat] values are at least [-9223372036854775805]
    (no fat bin wraps in int64), only the multiple of 5 below the
    threshold matters: a threshold and its value rounded down to a
    multiple of 5 return the same table, for a number and for a slider
    alike. *)
Theorem threshold_rounds_down
        (csv : DataFrame) (r : string) (max_fat : MaxFat) :
  Forall (fun row => min_total_fat <= total_fat row < 2 ^ 63) csv ->
  local_network csv r max_fat
  = local_network csv r (Num (max_fat_value max_fat / 5 * 5)).
Proof.
  intros Hrange. rewrite Forall_forall in Hrange.
  assert (E : fat_filtered csv max_fat
              = fat_filtered csv (Num (max_fat_value max_fat / 5 * 5))).
  { unfold fat_filtered, binned. rewrite map_map. apply filter_ext_in.
    intros x HIn. apply in_map_iff in HIn. destruct HIn as (row & <- & HIn).
    apply eq_true_iff_eq. unfold fat_ok, project, add_bins. simpl.
    rewrite (total_fat_bin_in_range _ (Hrange row HIn)).
    rewrite !Z.leb_le. apply fat_bin_le_limit. }
  unfold local_network, fast_rest, fast_filter. now rewrite E.
Qed.

Lemma threshold_rounds_down_witness :
  Forall (fun row => min_total_fat <= total_fat row < 2 ^ 63) example_csv
  /\ local_network example_csv "mcdonalds" (IntSlider 14)
     = local_network example_csv "mcdonalds"
         (Num (max_fat_value (IntSlider 14) / 5 * 5)).
Proof.
  assert (R : Forall (fun row => min_total_fat <= total_fat row < 2 ^ 63)
                     example_csv).
  { repeat constructor; vm_compute; congruence. }
  split; [exact R|].
  exact (threshold_rounds_down example_csv "mcdonalds" (IntSlider 14) R).
Defined.

(** X16: When the [calories] values are at least [-9223372036854775800] (no
    calorie bin wraps in int64), the string in [calories_100] reads back
    as [floor(calories/100)*100] of the record. *)
Theorem calories_100_reads_back
        (csv : DataFrame) (r : string) (max_fat : MaxFat) :
  Forall (fun row => min_calories <= calories row < 2 ^ 63) csv ->
  Forall (fun o =>
            option_map Z.of_int (NilZero.int_of_string (l_calories_100 o))
            = Some (calories (l_row o) / 100 * 100))
         (local_network csv r max_fat).
Proof.
  intros Hrange. rewrite Forall_forall in Hrange.
  apply Forall_forall. intros o HIn.
  apply local_network_In_row in HIn. destruct HIn as (row & HIn & ->).
  unfold render, add_bins. simpl.
  rewrite (calories_bin_in_range _ (Hrange row HIn)).
  apply str_of_int_read_back.
Qed.

Lemma calories_100_reads_back_witness :
  Forall (fun row => min_calories <= calories row < 2 ^ 63) mixed_case_csv
  /\ Forall (fun o =>
               option_map Z.of_int (NilZero.int_of_string (l_calories_100 o))
               = Some (calories (l_row o) / 100 * 100))
            (local_network mixed_case_csv "wendys" (Num 10)).
Proof.
  assert (R : Forall (fun row => min_calories <= calories row < 2 ^ 63)
                     mixed_case_csv).
  { repeat constructor; vm_compute; congruence. }
  split; [exact R|].
  exact (calories_100_reads_back mixed_case_csv "wendys" (Num 10) R).
Defined.

(** ** Loading, [main] and the dashboard callbacks *)

(** X17: The file [load_fast] was given does not decide what
    [extract_local_network] works on: after loading any readable file the
    rows still come from ["data/fastfood.csv"], the loaded table stays in
    [self.fast], and the call raises when that file is missing although
    a table is loaded. *)
Theorem extract_after_load_fast
        (filename r : string) (max_fat : MaxFat) (disk : Disk) (st : Store) :
  (load_fast filename ;;; extract_local_network r max_fat) disk st
  = match disk filename with
    | None => Raise (FileNotFoundError filename)
    | Some df =>
        match disk "data/fastfood.csv" with
        | Some csv =>
            Ok (local_network csv r max_fat, mkStore (Some df) (local st))
        | None => Raise (FileNotFoundError "data/fastfood.csv")
        end
    end.
Proof.
  unfold bind at 1, load_fast, bind, read_csv, set_fast.
  destruct (disk filename) as [df|]; [|reflexivity].
  simpl. apply extract_local_network_run.
Qed.

(** X18: [main] raises exactly when ["data/fastfood.csv"] is missing.
    Otherwise the frame it hands to [show_sankey] is the local network of
    ["mcdonalds"] at threshold 30, which holds every record of the file
    whose lowercased restaurant is ["mcdonalds"] and whose total fat is
    below 35 (and at least [-9223372036854775805], so that its fat bin
    does not wrap), and the table of the file is left in [self.fast]. *)
Theorem main_shows_mcdonalds (disk : Disk) (st : Store) :
  match main disk st, disk "data/fastfood.csv" with
  | Ok (call, st'), Some csv =>
      call = mkSankeyCall (local_network csv "mcdonalds" (Num 30))
                          "restaurant" "calories_100" "total_fat_10"
                          None None None
      /\ st' = mkStore (Some csv) (local st)
      /\ Forall (fun row =>
                   lower (restaurant row) = "mcdonalds" ->
                   min_total_fat <= total_fat row < 35 ->
                   In (render (add_bins row)) (sk_df call))
                csv
  | Raise e, None => e = FileNotFoundError "data/fastfood.csv"
  | _, _ => False
  end.
Proof.
  unfold main, bind at 1, load_fast, bind at 1, read_csv, set_fast.
  destruct (disk "data/fastfood.csv") as [csv|] eqn:D; [|reflexivity].
  rewrite bind_extract_local_network. simpl. rewrite D. unfold ret.
  split; [reflexivity|]. split; [reflexivity|].
  apply Forall_forall. intros row HIn HL Hf. simpl.
  apply local_network_In. exists row. split; [assumption|].
  split; [reflexivity|]. exists row. split; [assumption|].
  unfold supports. repeat split; try assumption.
  unfold add_bins. simpl.
  rewrite total_fat_bin_in_range by lia.
  apply (fat_bin_le_grams (total_fat row) 30). simpl. lia.
Qed.

(** X19: [get_catalog] stores the table it returns in the global [local] and
    leaves [self.fast] alone.  A later [get_plot] draws that stored table
    whatever restaurant and threshold it is called with, with the width,
    height and colour it was given; a colour label that is not a key of
    [color_options] raises [KeyError]. *)
Theorem get_plot_draws_last_catalog
        (r : string) (max_fat : MaxFat) (disk : Disk) (st : Store) :
  match get_catalog r max_fat disk st, disk "data/fastfood.csv" with
  | Ok (rows, st'), Some csv =>
      rows = local_network csv r max_fat
      /\ local st' = Some rows
      /\ fast st' = fast st
      /\ forall r' max_fat' width height color_picker,
           get_plot r' max_fat' width height color_picker st'
           = match getitem color_options color_picker with
             | Some color =>
                 Drawn (mkSankeyCall rows "restaurant" "calories_100"
                                     "total_fat_10"
                                     (Some width) (Some height) (Some color))
             | None => Failed (KeyError color_picker)
             end
  | Raise e, None => e = FileNotFoundError "data/fastfood.csv"
  | _, _ => False
  end.
Proof.
  unfold get_catalog. rewrite bind_extract_local_network.
  destruct (disk "data/fastfood.csv") as [csv|]; [|reflexivity].
  simpl. repeat split; reflexivity.
Qed.

(** X20: Only [get_catalog] writes the global [local]: after [load_fast],
    [get_restaurants] and [extract_local_network] it is still unset, and
    [get_plot] raises [NameError], also for a colour that is no key. *)
Theorem get_plot_needs_catalog
        (filename r : string) (max_fat : MaxFat) (width height : Z)
        (color_picker : string) (disk : Disk) (st : Store) :
  local st = None ->
  match (load_fast filename ;;;
         get_restaurants ;;;
         extract_local_network r max_fat) disk st with
  | Ok (_, st') =>
      local st' = None
      /\ get_plot r max_fat width height color_picker st'
         = Failed (NameError "local")
  | Raise _ => True
  end.
Proof.
  intros Hloc.
  unfold bind at 1, load_fast, bind at 1, read_csv, set_fast.
  destruct (disk filename) as [df|]; [|exact I].
  unfold bind at 1. rewrite get_restaurants_run.
  rewrite extract_local_network_run.
  destruct (disk "data/fastfood.csv") as [csv|]; [|exact I].
  unfold get_plot. simpl. rewrite Hloc. split; reflexivity.
Qed.

Lemma get_plot_needs_catalog_witness :
  local empty_store = None
  /\ match (load_fast "data/fastfood.csv" ;;;
            get_restaurants ;;;
            extract_local_network "mcdonalds" (Num 15))
           (disk_of example_csv) empty_store with
     | Ok (_, st') =>
         local st' = None
         /\ get_plot "mcdonalds" (Num 15) 1000 1000 "Vibrant Red" st'
            = Failed (NameError "local")
     | Raise _ => True
     end.
Proof.
  split.
  - reflexivity.
  - apply (get_plot_needs_catalog "data/fastfood.csv" "mcdonalds" (Num 15)
             1000 1000 "Vibrant Red" (disk_of example_csv) empty_store).
    reflexivity.
Defined.
